(** * Shallow embedding of the storefront data-access layer [src/db.ts].

    The backing key-value medium holds one serialized document under
    [STORAGE_KEY].  Since [JSON.parse (JSON.stringify s) = s] on these plain
    records, the medium is modelled by the document it parses to ([stored],
    [None] when the key is absent) together with the log of every
    [saveState] call ([saves]), so that "no write occurs" is observable.

    JavaScript numbers (credits, prices, amounts, counters, timestamps) are
    modelled as [Z].  The code computes with IEEE doubles, which agree with
    [Z] on integers of magnitude at most 2^53 and round beyond that (and
    on fractions); the theorems below therefore relate each call's
    arithmetic to the values that call reads ([c - price], [c + a], then
    [(c + a) + b] for two calls, [count + 1]), not to a closed form
    accumulated over several calls such as [c - k * price]; the one
    closed form used, [deliveredCount] equal to the number of delivered
    units, is bounded by the length of a list.  The identifiers produced
    by [Math.random] and the timestamps produced by [Date.now] are passed
    to the operations as explicit arguments. *)

From Stdlib Require Import String ZArith Lia.
From stdpp Require Import base list.

Open Scope Z_scope.

(* ------------------------------------------------------------------ *)
(** ** Data model ([./types], imported by [src/db.ts]) *)

(** Modelled from the spec: the enums of [./types] (not under src/),
    with the spellings the spec lists. *)
Inductive UserRole := USER | ADMIN.
Inductive ItemType := INSTANT | SEQUENTIAL.
Inductive TransactionStatus := PENDING | APPROVED | REJECTED.
Inductive TicketStatus := OPEN | CLOSED.

Definition ItemType_eqb (a b : ItemType) : bool :=
  match a, b with
  | INSTANT, INSTANT | SEQUENTIAL, SEQUENTIAL => true
  | _, _ => false
  end.

Definition TransactionStatus_eqb (a b : TransactionStatus) : bool :=
  match a, b with
  | PENDING, PENDING | APPROVED, APPROVED | REJECTED, REJECTED => true
  | _, _ => false
  end.

(** Modelled from the spec: the record interfaces of [./types]
    (not under src/), with the attributes the spec's data model lists. *)
Record User := mkUser {
  u_id : string; u_role : UserRole; u_credits : Z }.

Record SequentialItem := mkSequentialItem {
  si_content : string; si_isDelivered : bool }.

Record Item := mkItem {
  i_id : string; i_name : string; i_price : Z; i_type : ItemType;
  i_content : option string;                            (* content?: string *)
  i_sequentialItems : option (list SequentialItem);     (* sequentialItems?: *)
  i_deliveredCount : Z }.

Record Purchase := mkPurchase {
  p_id : string; p_userId : string; p_itemId : string; p_itemName : string;
  p_contentDelivered : string; p_timestamp : Z; p_price : Z }.

Record Transaction := mkTransaction {
  t_id : string; t_userId : string; t_amount : Z; t_status : TransactionStatus }.

Record RedeemCode := mkRedeemCode {
  c_code : string; c_amount : Z; c_isUsed : bool }.

Record TicketMessage := mkTicketMessage {
  m_sender : string; m_content : string; m_timestamp : Z }.

Record Ticket := mkTicket {
  k_id : string; k_messages : list TicketMessage; k_status : TicketStatus;
  k_lastUpdated : Z }.

(** [interface DBState] *)
Record DBState := mkDBState {
  users : list User; items : list Item; purchases : list Purchase;
  transactions : list Transaction; redeemCodes : list RedeemCode;
  tickets : list Ticket }.

(** Field assignments [state.f = v] on the document. *)
Definition set_users (s : DBState) v :=
  mkDBState v s.(items) s.(purchases) s.(transactions) s.(redeemCodes) s.(tickets).
Definition set_items (s : DBState) v :=
  mkDBState s.(users) v s.(purchases) s.(transactions) s.(redeemCodes) s.(tickets).
Definition set_purchases (s : DBState) v :=
  mkDBState s.(users) s.(items) v s.(transactions) s.(redeemCodes) s.(tickets).
Definition set_transactions (s : DBState) v :=
  mkDBState s.(users) s.(items) s.(purchases) v s.(redeemCodes) s.(tickets).
Definition set_redeemCodes (s : DBState) v :=
  mkDBState s.(users) s.(items) s.(purchases) s.(transactions) v s.(tickets).
Definition set_tickets (s : DBState) v :=
  mkDBState s.(users) s.(items) s.(purchases) s.(transactions) s.(redeemCodes) v.

(** The backing medium: the parsed content of [STORAGE_KEY] and the log of
    writes ([localStorage.setItem]), newest first. *)
Record Medium := mkMedium { stored : option DBState; saves : list DBState }.

(* ------------------------------------------------------------------ *)
(** ** Array helpers *)

(** [arr.find(p)] together with the position of the element found, so that
    a mutation of the returned object is a write at that position. *)
Fixpoint find_ref {A} (p : A -> bool) (l : list A) : option (nat * A) :=
  match l with
  | [] => None
  | x :: l' => if p x then Some (0%nat, x)
               else match find_ref p l' with
                    | Some (n, y) => Some (S n, y)
                    | None => None
                    end
  end.

(** [arr.findIndex(p)], with [-1] as [None]. *)
Definition findIndex {A} (p : A -> bool) (l : list A) : option nat :=
  match find_ref p l with Some (n, _) => Some n | None => None end.

(** [arr.push(x)] *)
Definition push {A} (l : list A) (x : A) : list A := l ++ [x].

(** The search predicates [u => u.id === userId], [i => i.id === itemId],
    [si => !si.isDelivered], [t => t.id === id] and
    [c => c.code === codeStr && !c.isUsed]. *)
Definition userP (userId : string) (u : User) : bool := String.eqb u.(u_id) userId.
Definition itemP (itemId : string) (i : Item) : bool := String.eqb i.(i_id) itemId.
Definition undeliveredP (si : SequentialItem) : bool := negb si.(si_isDelivered).
Definition txP (id : string) (t : Transaction) : bool := String.eqb t.(t_id) id.
Definition codeP (codeStr : string) (c : RedeemCode) : bool :=
  String.eqb c.(c_code) codeStr && negb c.(c_isUsed).

(* ------------------------------------------------------------------ *)
(** ** Persistence *)

Definition emptyState : DBState := mkDBState [] [] [] [] [] [].

(** [getInitialState]: the stored document, or the empty default
    (which is not written back). *)
Definition getInitialState (m : Medium) : DBState :=
  match m.(stored) with Some s => s | None => emptyState end.

(** [saveState] *)
Definition saveState (s : DBState) (m : Medium) : Medium :=
  mkMedium (Some s) (s :: m.(saves)).

(* ------------------------------------------------------------------ *)
(** ** Users *)

Definition getUsers (m : Medium) : list User * Medium :=
  ((getInitialState m).(users), m).

Definition addUser (user : User) (m : Medium) : unit * Medium :=
  let state := getInitialState m in
  (tt, saveState (set_users state (push state.(users) user)) m).

Record VerifyResult := mkVerifyResult { v_success : bool; v_error : option string }.

Definition verifyUser (token : string) (m : Medium) : VerifyResult * Medium :=
  if (0 <? String.length token)%nat
  then (mkVerifyResult true None, m)
  else (mkVerifyResult false (Some "Invalid or expired verification token"%string), m).

Definition set_credits (u : User) (c : Z) : User := mkUser u.(u_id) u.(u_role) c.

Definition updateUserCredits (userId : string) (amount : Z) (m : Medium)
  : unit * Medium :=
  let state := getInitialState m in
  let state :=
    match find_ref (userP userId) state.(users) with
    | Some (n, user) =>
        set_users state (<[n := set_credits user (user.(u_credits) + amount)]> state.(users))
    | None => state
    end in
  (tt, saveState state m).

(* ------------------------------------------------------------------ *)
(** ** Items *)

Definition getItems (m : Medium) : list Item * Medium :=
  ((getInitialState m).(items), m).

Definition addItem (item : Item) (m : Medium) : unit * Medium :=
  let state := getInitialState m in
  (tt, saveState (set_items state (push state.(items) item)) m).

Definition updateItem (item : Item) (m : Medium) : bool * Medium :=
  let state := getInitialState m in
  match findIndex (itemP item.(i_id)) state.(items) with
  | Some index => (true, saveState (set_items state (<[index := item]> state.(items))) m)
  | None => (false, m)
  end.

Definition deleteItem (itemId : string) (m : Medium) : unit * Medium :=
  let state := getInitialState m in
  (tt, saveState (set_items state
         (List.filter (fun i => negb (itemP itemId i)) state.(items))) m).

(* ------------------------------------------------------------------ *)
(** ** Purchases *)

Definition getPurchases (m : Medium) : list Purchase * Medium :=
  ((getInitialState m).(purchases), m).

Definition addPurchase (purchase : Purchase) (m : Medium) : unit * Medium :=
  let state := getInitialState m in
  (tt, saveState (set_purchases state (push state.(purchases) purchase)) m).

(** [{ success, content?, error? }] *)
Record PurchaseResult := mkPurchaseResult {
  r_success : bool; r_content : option string; r_error : option string }.

Definition purchaseError (e : string) : PurchaseResult := mkPurchaseResult false None (Some e).

(** [available.isDelivered = true] *)
Definition markDelivered (si : SequentialItem) : SequentialItem :=
  mkSequentialItem si.(si_content) true.

(** [available.isDelivered = true; item.deliveredCount++], with [available]
    the unit at position [k] of [units]. *)
Definition deliverAt (item : Item) (units : list SequentialItem) (k : nat)
    (available : SequentialItem) : Item :=
  mkItem item.(i_id) item.(i_name) item.(i_price) item.(i_type) item.(i_content)
    (Some (<[k := markDelivered available]> units)) (item.(i_deliveredCount) + 1).

(** [processPurchase]; [newId] stands for
    [Math.random().toString(36).substring(7)] and [now] for [Date.now()]. *)
Definition processPurchase (userId itemId : string) (newId : string) (now : Z)
    (m : Medium) : PurchaseResult * Medium :=
  let state := getInitialState m in
  match find_ref (userP userId) state.(users),
        find_ref (itemP itemId) state.(items) with
  | Some (un, user), Some (itn, item) =>
      if user.(u_credits) <? item.(i_price)
      then (purchaseError "Insufficient credits", m)
      else
        (* the content and the (possibly mutated) item *)
        let fulfil : option (string * Item) :=
          if ItemType_eqb item.(i_type) INSTANT
          then Some (match item.(i_content) with Some c => c | None => EmptyString end, item)
          else
            let available :=
              match item.(i_sequentialItems) with
              | Some units =>
                  match find_ref undeliveredP units with
                  | Some (k, si) => Some (si.(si_content), deliverAt item units k si)
                  | None => None
                  end
              | None => None
              end in
            available in
        match fulfil with
        | None => (purchaseError "Out of stock", m)
        | Some (content, item') =>
            let state := set_items state (<[itn := item']> state.(items)) in
            let state := set_users state
                (<[un := set_credits user (user.(u_credits) - item'.(i_price))]> state.(users)) in
            let purchase := mkPurchase newId userId itemId item'.(i_name) content now
                                       item'.(i_price) in
            let state := set_purchases state (push state.(purchases) purchase) in
            (mkPurchaseResult true (Some content) None, saveState state m)
        end
  | _, _ => (purchaseError "User or Item not found", m)
  end.

(* ------------------------------------------------------------------ *)
(** ** Transactions *)

Definition getTransactions (m : Medium) : list Transaction * Medium :=
  ((getInitialState m).(transactions), m).

Definition addTransaction (transaction : Transaction) (m : Medium) : unit * Medium :=
  let state := getInitialState m in
  (tt, saveState (set_transactions state (push state.(transactions) transaction)) m).

Definition set_status (tx : Transaction) (st : TransactionStatus) : Transaction :=
  mkTransaction tx.(t_id) tx.(t_userId) tx.(t_amount) st.

Definition updateTransactionStatus (id : string) (status : TransactionStatus)
    (m : Medium) : unit * Medium :=
  let state := getInitialState m in
  let state :=
    match find_ref (txP id) state.(transactions) with
    | Some (tn, tx) =>
        let state := set_transactions state
                       (<[tn := set_status tx status]> state.(transactions)) in
        if TransactionStatus_eqb status APPROVED then
          match find_ref (userP tx.(t_userId)) state.(users) with
          | Some (un, user) =>
              set_users state
                (<[un := set_credits user (user.(u_credits) + tx.(t_amount))]> state.(users))
          | None => state
          end
        else state
    | None => state
    end in
  (tt, saveState state m).

(* ------------------------------------------------------------------ *)
(** ** Redeem codes *)

Definition getRedeemCodes (m : Medium) : list RedeemCode * Medium :=
  ((getInitialState m).(redeemCodes), m).

Definition addRedeemCode (code : RedeemCode) (m : Medium) : unit * Medium :=
  let state := getInitialState m in
  (tt, saveState (set_redeemCodes state (push state.(redeemCodes) code)) m).

(** [{ success, amount?, error? }] *)
Record RedeemResult := mkRedeemResult {
  d_success : bool; d_amount : option Z; d_error : option string }.

Definition markUsed (c : RedeemCode) : RedeemCode := mkRedeemCode c.(c_code) c.(c_amount) true.

Definition redeem (userId codeStr : string) (m : Medium) : RedeemResult * Medium :=
  let state := getInitialState m in
  match find_ref (userP userId) state.(users) with
  | None => (mkRedeemResult false None (Some "User not found"%string), m)
  | Some (un, user) =>
      match find_ref (codeP codeStr) state.(redeemCodes) with
      | None => (mkRedeemResult false None (Some "Invalid or already used code"%string), m)
      | Some (cn, code) =>
          let state := set_redeemCodes state (<[cn := markUsed code]> state.(redeemCodes)) in
          let state := set_users state
              (<[un := set_credits user (user.(u_credits) + code.(c_amount))]> state.(users)) in
          (mkRedeemResult true (Some code.(c_amount)) None, saveState state m)
      end
  end.

(* ------------------------------------------------------------------ *)
(** ** Tickets *)

Definition getTickets (m : Medium) : list Ticket * Medium :=
  ((getInitialState m).(tickets), m).

Definition createTicket (ticket : Ticket) (m : Medium) : unit * Medium :=
  let state := getInitialState m in
  (tt, saveState (set_tickets state (push state.(tickets) ticket)) m).

Definition addTicketMessage (ticketId : string) (message : TicketMessage) (now : Z)
    (m : Medium) : unit * Medium :=
  let state := getInitialState m in
  let state :=
    match find_ref (fun t => String.eqb t.(k_id) ticketId) state.(tickets) with
    | Some (n, t) =>
        set_tickets state (<[n := mkTicket t.(k_id) (push t.(k_messages) message)
                                     t.(k_status) now]> state.(tickets))
    | None => state
    end in
  (tt, saveState state m).

Definition closeTicket (ticketId : string) (now : Z) (m : Medium) : unit * Medium :=
  let state := getInitialState m in
  let state :=
    match find_ref (fun t => String.eqb t.(k_id) ticketId) state.(tickets) with
    | Some (n, t) =>
        set_tickets state (<[n := mkTicket t.(k_id) t.(k_messages) CLOSED now]> state.(tickets))
    | None => state
    end in
  (tt, saveState state m).

(* ------------------------------------------------------------------ *)
(** ** The whole interface of [DB] as a step on the medium *)

Inductive Op :=
  | OpGetUsers | OpAddUser (u : User) | OpVerifyUser (token : string)
  | OpUpdateUserCredits (userId : string) (amount : Z)
  | OpGetItems | OpAddItem (i : Item) | OpUpdateItem (i : Item) | OpDeleteItem (itemId : string)
  | OpGetPurchases | OpAddPurchase (p : Purchase)
  | OpProcessPurchase (userId itemId newId : string) (now : Z)
  | OpGetTransactions | OpAddTransaction (t : Transaction)
  | OpUpdateTransactionStatus (id : string) (status : TransactionStatus)
  | OpGetRedeemCodes | OpAddRedeemCode (c : RedeemCode) | OpRedeem (userId codeStr : string)
  | OpGetTickets | OpCreateTicket (t : Ticket)
  | OpAddTicketMessage (ticketId : string) (msg : TicketMessage) (now : Z)
  | OpCloseTicket (ticketId : string) (now : Z).

Definition step (o : Op) (m : Medium) : Medium :=
  match o with
  | OpGetUsers => snd (getUsers m)
  | OpAddUser u => snd (addUser u m)
  | OpVerifyUser tok => snd (verifyUser tok m)
  | OpUpdateUserCredits uid a => snd (updateUserCredits uid a m)
  | OpGetItems => snd (getItems m)
  | OpAddItem i => snd (addItem i m)
  | OpUpdateItem i => snd (updateItem i m)
  | OpDeleteItem iid => snd (deleteItem iid m)
  | OpGetPurchases => snd (getPurchases m)
  | OpAddPurchase p => snd (addPurchase p m)
  | OpProcessPurchase uid iid nid now => snd (processPurchase uid iid nid now m)
  | OpGetTransactions => snd (getTransactions m)
  | OpAddTransaction t => snd (addTransaction t m)
  | OpUpdateTransactionStatus id st => snd (updateTransactionStatus id st m)
  | OpGetRedeemCodes => snd (getRedeemCodes m)
  | OpAddRedeemCode c => snd (addRedeemCode c m)
  | OpRedeem uid cs => snd (redeem uid cs m)
  | OpGetTickets => snd (getTickets m)
  | OpCreateTicket t => snd (createTicket t m)
  | OpAddTicketMessage tid msg now => snd (addTicketMessage tid msg now m)
  | OpCloseTicket tid now => snd (closeTicket tid now m)
  end.

Fixpoint run (os : list Op) (m : Medium) : Medium :=
  match os with [] => m | o :: os' => run os' (step o m) end.

(* ------------------------------------------------------------------ *)
(** ** Sanity checks on the spec's worked examples *)

Definition exUser : User := mkUser "U" USER 100.
Definition exItem : Item :=
  mkItem "I" "Gift card" 30 INSTANT (Some "CODE123"%string) None 0.
Definition exMedium : Medium :=
  mkMedium (Some (mkDBState [exUser] [exItem] [] [] [mkRedeemCode "WELCOME10" 10 false] []))
           [].

Example processPurchase_example :
  let '(r, m') := processPurchase "U" "I" "p1" 7 exMedium in
  r = mkPurchaseResult true (Some "CODE123"%string) None /\
  option_map users m'.(stored) = Some [mkUser "U" USER 70] /\
  option_map purchases m'.(stored) =
    Some [mkPurchase "p1" "U" "I" "Gift card" "CODE123" 7 30].
Proof. vm_compute. repeat split. Qed.

Example redeem_example :
  let '(r1, m1) := redeem "U" "WELCOME10" exMedium in
  let '(r2, m2) := redeem "U" "WELCOME10" m1 in
  r1 = mkRedeemResult true (Some 10) None /\
  r2 = mkRedeemResult false None (Some "Invalid or already used code"%string) /\ m2 = m1.
Proof. vm_compute. repeat split. Qed.

(* ------------------------------------------------------------------ *)
(** ** Lemmas on [find_ref] *)

Section FindRef.
Context {A : Type} (p : A -> bool).

Lemma find_ref_Some (l : list A) n x :
  find_ref p l = Some (n, x) ->
  l !! n = Some x /\ p x = true /\
  (forall j y, (j < n)%nat -> l !! j = Some y -> p y = false).
Proof.
  revert n. induction l as [|a l IH]; intros n H; simpl in H; [discriminate|].
  destruct (p a) eqn:Ha.
  - injection H as <- <-. split; [done|]. split; [done|]. intros j y Hj. lia.
  - destruct (find_ref p l) as [[n' y']|] eqn:Hf; [|discriminate].
    injection H as <- <-. destruct (IH n' eq_refl) as (H1 & H2 & H3).
    split; [done|]. split; [done|].
    intros [|j] y Hj Hy; simpl in Hy.
    + by injection Hy as <-.
    + apply (H3 j); [lia|done].
Qed.

Lemma find_ref_None (l : list A) :
  find_ref p l = None -> forall j y, l !! j = Some y -> p y = false.
Proof.
  induction l as [|a l IH]; intros H j y Hy; simpl in *; [discriminate|].
  destruct (p a) eqn:Ha; [discriminate|].
  destruct (find_ref p l) as [[n' y']|] eqn:Hf; [discriminate|].
  destruct j as [|j]; simpl in Hy; [by injection Hy as <-|]. eauto.
Qed.

Lemma find_ref_None_intro (l : list A) :
  (forall j y, l !! j = Some y -> p y = false) -> find_ref p l = None.
Proof.
  induction l as [|a l IH]; intros H; simpl; [done|].
  rewrite (H 0%nat a eq_refl). rewrite IH; [done|].
  intros j y Hy. apply (H (S j)). done.
Qed.

Lemma find_ref_Some_intro (l : list A) n x :
  l !! n = Some x -> p x = true ->
  (forall j y, (j < n)%nat -> l !! j = Some y -> p y = false) ->
  find_ref p l = Some (n, x).
Proof.
  revert n. induction l as [|a l IH]; intros n Hn Hx Hb; [done|].
  simpl. destruct n as [|n]; simpl in Hn.
  - injection Hn as ->. by rewrite Hx.
  - rewrite (Hb 0%nat a ltac:(lia) eq_refl).
    rewrite (IH n Hn Hx); [done|].
    intros j y Hj Hy. apply (Hb (S j)); [lia|done].
Qed.

(** Overwriting the element found by one that still satisfies [p] leaves
    the search result at the same position. *)
Lemma find_ref_insert (l : list A) n x x' :
  find_ref p l = Some (n, x) -> p x' = true ->
  find_ref p (<[n := x']> l) = Some (n, x').
Proof.
  intros H Hx'. destruct (find_ref_Some l n x H) as (H1 & _ & H3).
  apply find_ref_Some_intro.
  - apply list_lookup_insert_eq. by eapply lookup_lt_Some.
  - done.
  - intros j y Hj Hy. rewrite list_lookup_insert_ne in Hy by lia. eauto.
Qed.

Lemma find_ref_lt (l : list A) n x :
  find_ref p l = Some (n, x) -> (n < length l)%nat.
Proof. intros H. apply find_ref_Some in H as (H & _). by eapply lookup_lt_Some. Qed.

End FindRef.

(** [getInitialState] after a [saveState] reads the saved document back. *)
Lemma getInitialState_saveState s m : getInitialState (saveState s m) = s.
Proof. reflexivity. Qed.

Lemma find_ref_existsb {A} (p : A -> bool) (l : list A) :
  existsb p l = match find_ref p l with Some _ => true | None => false end.
Proof.
  induction l as [|a l IH]; simpl; [done|].
  destruct (p a); [done|]. rewrite IH. by destruct (find_ref p l) as [[??]|].
Qed.

(** The third gate of [processPurchase]: an INSTANT item, or a SEQUENTIAL one
    with an undelivered unit. *)
Definition inStock (item : Item) : bool :=
  ItemType_eqb item.(i_type) INSTANT ||
  match item.(i_sequentialItems) with
  | Some units => existsb undeliveredP units
  | None => false
  end.


(** Counterexample medium: a SEQUENTIAL item whose only unit is delivered. *)
Definition soldOutItem : Item :=
  mkItem "S" "Key" 30 SEQUENTIAL None (Some [mkSequentialItem "K1" true]) 1.
Definition soldOutMedium : Medium :=
  mkMedium (Some (mkDBState [exUser] [soldOutItem] [] [] [] [])) [].

(* ------------------------------------------------------------------ *)
(** ** processPurchase: all or nothing *)

(** C1 (counterexample).  Both the existence check and the credits check
    pass (user "U" and item "S" exist, 30 <= 100), yet [processPurchase]
    debits nothing and appends no Purchase: it fails with "Out of stock"
    and leaves the medium as it was. *)
Lemma C1_checks_pass_but_no_debit :
  find_ref (userP "U") (getInitialState soldOutMedium).(users) = Some (0%nat, exUser) /\
  find_ref (itemP "S") (getInitialState soldOutMedium).(items) = Some (0%nat, soldOutItem) /\
  i_price soldOutItem <= u_credits exUser /\
  processPurchase "U" "S" "p1" 7 soldOutMedium
    = (purchaseError "Out of stock", soldOutMedium).
Proof. vm_compute. repeat split; discriminate. Qed.

Ltac purchase_success Hu Hi Hst :=
  split; [split; [intros _; do 4 eexists; split; [first [exact Hu|reflexivity]|]; split; [first [exact Hi|reflexivity]|];
                  split; [lia|exact Hst]
                 |done]|];
  split; [intros _; do 7 eexists; split; [first [exact Hu|reflexivity]|]; split; [first [exact Hi|reflexivity]|];
          split; [reflexivity|]; split; [reflexivity|]; split; [reflexivity|];
          split; [first [left; split; [eassumption|reflexivity]
                        |right; do 3 eexists; split; [eassumption|]; split; [eassumption|];
                         split; [eassumption|reflexivity]]|];
          split; [reflexivity|]; split; [reflexivity|];
          split; [reflexivity|]; split; [reflexivity|]; reflexivity
         |intros ?; discriminate].

(** C1 (amended).  [processPurchase userId itemId] succeeds if and only if
    the user and the item are found, [item.price <= user.credits] and the
    item is in stock (INSTANT, or SEQUENTIAL with an undelivered unit).  On
    success the document is written once, with the user's credits debited
    by [item.price], the item replaced in place (unchanged if INSTANT; if
    SEQUENTIAL, its first undelivered unit marked delivered and
    [deliveredCount] incremented), one Purchase of that price appended and
    the other collections unchanged.  On failure
    the error is one of the three messages and the medium (stored document
    and write log) is unchanged. *)
Theorem processPurchase_all_or_nothing (userId itemId newId : string) (now : Z)
    (m : Medium) :
  let state := getInitialState m in
  let '(r, m') := processPurchase userId itemId newId now m in
  (r_success r = true <->
     exists un user itn item,
       find_ref (userP userId) state.(users) = Some (un, user) /\
       find_ref (itemP itemId) state.(items) = Some (itn, item) /\
       item.(i_price) <= user.(u_credits) /\ inStock item = true) /\
  (r_success r = true ->
     exists un user itn item item' pr st',
       find_ref (userP userId) state.(users) = Some (un, user) /\
       find_ref (itemP itemId) state.(items) = Some (itn, item) /\
       m' = saveState st' m /\
       st'.(users) = <[un := set_credits user (user.(u_credits) - item.(i_price))]> state.(users) /\
       st'.(items) = <[itn := item']> state.(items) /\
       ((item.(i_type) = INSTANT /\ item' = item) \/
        (exists units k si,
           item.(i_type) = SEQUENTIAL /\ item.(i_sequentialItems) = Some units /\
           find_ref undeliveredP units = Some (k, si) /\
           item' = deliverAt item units k si)) /\
       st'.(purchases) = push state.(purchases) pr /\
       pr.(p_price) = item.(i_price) /\
       st'.(transactions) = state.(transactions) /\
       st'.(redeemCodes) = state.(redeemCodes) /\
       st'.(tickets) = state.(tickets)) /\
  (r_success r = false ->
     m' = m /\
     (r_error r = Some "User or Item not found"%string \/
      r_error r = Some "Insufficient credits"%string \/
      r_error r = Some "Out of stock"%string)).
Proof.
  cbv zeta. destruct (processPurchase userId itemId newId now m) as [r m'] eqn:E.
  unfold processPurchase in E. cbv zeta in E.
  destruct (find_ref (userP userId) _) as [[un user]|] eqn:Hu;
  destruct (find_ref (itemP itemId) _) as [[itn item]|] eqn:Hi;
  try (injection E as <- <-; split;
       [split; [discriminate|intros (? & ? & ? & ? & ? & ? & _); congruence]|];
       split; [discriminate|intros _; split; [done|by left]]).
  destruct (u_credits user <? i_price item) eqn:Hlt.
  { injection E as <- <-. split; [split; [discriminate|]|].
    - intros (? & ? & ? & ? & H1 & H2 & H3 & _).
      injection H1 as <- <-. injection H2 as <- <-.
      apply Z.ltb_lt in Hlt. lia.
    - split; [discriminate|]. intros _. split; [done|]. right; by left. }
  apply Z.ltb_ge in Hlt.
  destruct (i_type item) eqn:Ht; simpl in E |- *.
  - assert (Hst : inStock item = true) by (unfold inStock; by rewrite Ht).
    injection E as <- <-. purchase_success Hu Hi Hst.
  - destruct (i_sequentialItems item) as [units|] eqn:Hs;
      [destruct (find_ref undeliveredP units) as [[k si]|] eqn:Hk|].
    + assert (Hst : inStock item = true)
        by (unfold inStock; by rewrite Ht, Hs, find_ref_existsb, Hk).
      injection E as <- <-. purchase_success Hu Hi Hst.
    + assert (Hst : inStock item = false)
        by (unfold inStock; by rewrite Ht, Hs, find_ref_existsb, Hk).
      injection E as <- <-. split.
      { split; [discriminate|]. intros (? & ? & ? & ? & H1 & H2 & _ & H4).
        injection H2 as <- <-. congruence. }
      split; [discriminate|]. intros _. split; [done|]. right; by right.
    + assert (Hst : inStock item = false) by (unfold inStock; by rewrite Ht, Hs).
      injection E as <- <-. split.
      { split; [discriminate|]. intros (? & ? & ? & ? & H1 & H2 & _ & H4).
        injection H2 as <- <-. congruence. }
      split; [discriminate|]. intros _. split; [done|]. right; by right.
Qed.

(** Shape of a successful [processPurchase]: the document written back, in
    terms of the user and item found and the content delivered. *)
Lemma processPurchase_success_shape userId itemId newId now m r m' :
  let state := getInitialState m in
  processPurchase userId itemId newId now m = (r, m') -> r_success r = true ->
  exists un user itn item content item',
    find_ref (userP userId) state.(users) = Some (un, user) /\
    find_ref (itemP itemId) state.(items) = Some (itn, item) /\
    item.(i_price) <= user.(u_credits) /\
    r = mkPurchaseResult true (Some content) None /\
    ((item.(i_type) = INSTANT /\ item' = item /\
      content = match item.(i_content) with Some c => c | None => EmptyString end) \/
     (item.(i_type) = SEQUENTIAL /\
      exists units k si, item.(i_sequentialItems) = Some units /\
        find_ref undeliveredP units = Some (k, si) /\
        content = si.(si_content) /\ item' = deliverAt item units k si)) /\
    m' = saveState
           (mkDBState
              (<[un := set_credits user (user.(u_credits) - item.(i_price))]> state.(users))
              (<[itn := item']> state.(items))
              (push state.(purchases)
                 (mkPurchase newId userId itemId item.(i_name) content now item.(i_price)))
              state.(transactions) state.(redeemCodes) state.(tickets)) m.
Proof.
  cbv zeta. intros E Hs. unfold processPurchase in E. cbv zeta in E.
  destruct (find_ref (userP userId) _) as [[un user]|] eqn:Hu;
  destruct (find_ref (itemP itemId) _) as [[itn item]|] eqn:Hi;
  try (injection E as <- <-; discriminate).
  destruct (u_credits user <? i_price item) eqn:Hlt;
    [injection E as <- <-; discriminate|].
  apply Z.ltb_ge in Hlt.
  destruct (i_type item) eqn:Ht; simpl in E.
  - injection E as <- <-. do 6 eexists.
    split; [done|]. split; [done|]. split; [done|]. split; [done|].
    split; [left; done|]. reflexivity.
  - destruct (i_sequentialItems item) as [units|] eqn:Hsq;
      [destruct (find_ref undeliveredP units) as [[k si]|] eqn:Hk|];
      injection E as <- <-; [|discriminate|discriminate].
    do 6 eexists.
    split; [done|]. split; [done|]. split; [done|]. split; [done|].
    split; [right; split; [done|]; do 3 eexists; done|]. reflexivity.
Qed.

(** C10.  A successful purchase of an INSTANT item leaves the items
    collection exactly as it was; the only changes to the document are the
    debit of the first user with id [userId] by [item.price] and the
    appended Purchase record; the content returned is [item.content], or
    the empty string when it is unset. *)
Theorem processPurchase_instant_frame userId itemId newId now m itn item
    (Hi : find_ref (itemP itemId) (getInitialState m).(items) = Some (itn, item))
    (Ht : item.(i_type) = INSTANT) :
  let state := getInitialState m in
  let content := match item.(i_content) with Some c => c | None => EmptyString end in
  let '(r, m') := processPurchase userId itemId newId now m in
  r_success r = true ->
  exists un user,
    find_ref (userP userId) state.(users) = Some (un, user) /\
    r_content r = Some content /\
    m' = saveState
           (mkDBState
              (<[un := set_credits user (user.(u_credits) - item.(i_price))]> state.(users))
              state.(items)
              (push state.(purchases)
                 (mkPurchase newId userId itemId item.(i_name) content now item.(i_price)))
              state.(transactions) state.(redeemCodes) state.(tickets)) m.
Proof.
  cbv zeta. destruct (processPurchase userId itemId newId now m) as [r m'] eqn:E.
  intros Hs.
  destruct (processPurchase_success_shape _ _ _ _ _ _ _ E Hs)
    as (un & user & itn' & item0 & content & item' & Hu & Hi' & _ & -> & Hc & ->).
  rewrite Hi in Hi'. injection Hi' as <- <-.
  destruct Hc as [(_ & -> & ->) | (Ht' & _)]; [|congruence].
  exists un, user. split; [done|]. split; [done|].
  rewrite (list_insert_id (items (getInitialState m)) itn item); [done|].
  by apply find_ref_Some in Hi as [? _].
Qed.

Lemma processPurchase_instant_frame_witness :
  let state := getInitialState exMedium in
  let content := match exItem.(i_content) with Some c => c | None => EmptyString end in
  let '(r, m') := processPurchase "U" "I" "p1" 7 exMedium in
  r_success r = true ->
  exists un user,
    find_ref (userP "U") state.(users) = Some (un, user) /\
    r_content r = Some content /\
    m' = saveState
           (mkDBState
              (<[un := set_credits user (user.(u_credits) - exItem.(i_price))]> state.(users))
              state.(items)
              (push state.(purchases)
                 (mkPurchase "p1" "U" "I" exItem.(i_name) content 7 exItem.(i_price)))
              state.(transactions) state.(redeemCodes) state.(tickets)) exMedium.
Proof. exact (processPurchase_instant_frame "U" "I" "p1" 7 exMedium 0%nat exItem eq_refl eq_refl). Defined.

(** C5.  After a successful [processPurchase], every user record whose
    credits were non-negative before still has non-negative credits; the
    debited record in particular ends with non-negative credits, because
    the debit is applied only when [user.credits >= item.price]. *)
Theorem processPurchase_credits_nonneg userId itemId newId now m r m'
    (E : processPurchase userId itemId newId now m = (r, m'))
    (Hs : r_success r = true) :
  forall i u u',
    (getInitialState m).(users) !! i = Some u -> 0 <= u.(u_credits) ->
    (getInitialState m').(users) !! i = Some u' -> 0 <= u'.(u_credits).
Proof.
  destruct (processPurchase_success_shape _ _ _ _ _ _ _ E Hs)
    as (un & user & itn & item & content & item' & Hu & _ & Hle & _ & _ & ->).
  intros i u u' Hb Hnn Ha. simpl in Ha.
  destruct (decide (i = un)) as [->|Hne].
  - rewrite list_lookup_insert_eq in Ha by (by eapply find_ref_lt).
    injection Ha as <-. simpl. lia.
  - rewrite list_lookup_insert_ne in Ha by done. congruence.
Qed.

Lemma processPurchase_credits_nonneg_witness :
  0 <= u_credits (set_credits exUser 70).
Proof.
  apply (processPurchase_credits_nonneg "U" "I" "p1" 7 exMedium _ _ eq_refl eq_refl
           0%nat exUser); [reflexivity | simpl; lia | vm_compute; reflexivity].
Defined.

(* ------------------------------------------------------------------ *)
(** ** Sequential stock *)

(** [calls.length] successive calls [processPurchase userId itemId], the
    i-th with the identifier and timestamp [calls !! i]. *)
Fixpoint purchaseLoop (userId itemId : string) (calls : list (string * Z)) (m : Medium)
  : list PurchaseResult * Medium :=
  match calls with
  | [] => ([], m)
  | (newId, now) :: rest =>
      let '(r, m1) := processPurchase userId itemId newId now m in
      let '(rs, m2) := purchaseLoop userId itemId rest m1 in
      (r :: rs, m2)
  end.

Section Sequential.
Variables (userId itemId : string) (itn : nat) (item : Item)
          (units : list SequentialItem).
Hypothesis fresh : Forall (fun si => si.(si_isDelivered) = false) units.

(** The units after [k] deliveries: the first [k] marked delivered. *)
Definition unitsAfter (k : nat) : list SequentialItem :=
  (markDelivered <$> take k units) ++ drop k units.

(** The first item with id [itemId] is still at [itn], has the price and
    type of [item], and has delivered its first [k] units. *)
Definition stage (k : nat) (m : Medium) (it : Item) : Prop :=
  find_ref (itemP itemId) (getInitialState m).(items) = Some (itn, it) /\
  it.(i_price) = item.(i_price) /\ it.(i_type) = SEQUENTIAL /\
  it.(i_sequentialItems) = Some (unitsAfter k).

(** The balance read by a call on [m] covers [item.price]. *)
Definition canPay (m : Medium) : Prop :=
  exists un u, find_ref (userP userId) (getInitialState m).(users) = Some (un, u) /\
               item.(i_price) <= u.(u_credits).

Lemma unitsAfter_find k si :
  units !! k = Some si -> find_ref undeliveredP (unitsAfter k) = Some (k, si).
Proof.
  intros Hk. assert (Hlt : (k < length units)%nat) by (by eapply lookup_lt_Some).
  assert (Hlen : length (markDelivered <$> take k units) = k)
    by (rewrite length_fmap; apply length_take_le; lia).
  apply find_ref_Some_intro.
  - unfold unitsAfter. rewrite lookup_app_r by lia. rewrite Hlen, Nat.sub_diag.
    rewrite lookup_drop, Nat.add_0_r. done.
  - unfold undeliveredP. rewrite Forall_lookup in fresh. by rewrite (fresh k si Hk).
  - intros j y Hj Hy. unfold unitsAfter in Hy. rewrite lookup_app_l in Hy by lia.
    rewrite list_lookup_fmap in Hy.
    destruct (take k units !! j); simpl in Hy; [|discriminate].
    by injection Hy as <-.
Qed.

Lemma unitsAfter_all_delivered :
  find_ref undeliveredP (unitsAfter (length units)) = None.
Proof.
  apply find_ref_None_intro. intros j y Hy.
  unfold unitsAfter in Hy. rewrite drop_ge, app_nil_r in Hy by lia.
  rewrite list_lookup_fmap in Hy.
  destruct (take _ units !! j); simpl in Hy; [|discriminate]. by injection Hy as <-.
Qed.

Lemma unitsAfter_deliver k si :
  units !! k = Some si ->
  <[k := markDelivered si]> (unitsAfter k) = unitsAfter (S k).
Proof.
  intros Hk. assert (Hlt : (k < length units)%nat) by (by eapply lookup_lt_Some).
  unfold unitsAfter. rewrite (take_S_r _ _ _ Hk), fmap_app, (drop_S _ _ _ Hk).
  rewrite <- app_assoc. simpl.
  assert (Hlen : length (markDelivered <$> take k units) = k)
    by (rewrite length_fmap; apply length_take_le; lia).
  rewrite <- Hlen at 1. rewrite <- (Nat.add_0_r (length _)).
  rewrite insert_app_r. done.
Qed.

(** One call at stage [k]: it delivers unit [k] and replaces the item by
    [deliverAt], i.e. marks that unit delivered and applies
    [deliveredCount++] to the count it had. *)
Lemma stage_step k m it newId now si :
  stage k m it -> units !! k = Some si -> canPay m ->
  let '(r, m1) := processPurchase userId itemId newId now m in
  r = mkPurchaseResult true (Some si.(si_content)) None /\
  find_ref (itemP itemId) (getInitialState m1).(items)
    = Some (itn, deliverAt it (unitsAfter k) k si) /\
  stage (S k) m1 (deliverAt it (unitsAfter k) k si).
Proof.
  intros (Hi & Hp & Ht & Hs) Hk (un & u & Hu & Hc).
  unfold processPurchase. cbv zeta. rewrite Hu, Hi.
  assert (Hlt : (u_credits u <? i_price it) = false) by (apply Z.ltb_ge; lia).
  rewrite Hlt, Ht. cbn [ItemType_eqb]. rewrite Hs, (unitsAfter_find k si Hk).
  split; [reflexivity|]. unfold stage. rewrite !getInitialState_saveState.
  unfold set_purchases, set_users, set_items. cbn [items].
  assert (Hf : find_ref (itemP itemId)
                 (<[itn := deliverAt it (unitsAfter k) k si]> (getInitialState m).(items))
               = Some (itn, deliverAt it (unitsAfter k) k si)).
  { eapply find_ref_insert; [exact Hi|]. by apply find_ref_Some in Hi as (_ & ? & _). }
  rewrite Hf. split; [done|]. split; [done|]. cbn. split; [done|]. split; [done|].
  by rewrite (unitsAfter_deliver k si Hk).
Qed.

Lemma stage_out_of_stock m it newId now :
  stage (length units) m it -> canPay m ->
  processPurchase userId itemId newId now m = (purchaseError "Out of stock", m).
Proof.
  intros (Hi & Hp & Ht & Hs) (un & u & Hu & Hc).
  unfold processPurchase. cbv zeta. rewrite Hu, Hi.
  assert (Hlt : (u_credits u <? i_price it) = false) by (apply Z.ltb_ge; lia).
  rewrite Hlt, Ht. cbn [ItemType_eqb]. rewrite Hs, unitsAfter_all_delivered. done.
Qed.

End Sequential.

Lemma purchaseLoop_app userId itemId l1 l2 m :
  purchaseLoop userId itemId (l1 ++ l2) m =
  let '(rs1, m1) := purchaseLoop userId itemId l1 m in
  let '(rs2, m2) := purchaseLoop userId itemId l2 m1 in
  (rs1 ++ rs2, m2).
Proof.
  revert m. induction l1 as [|[newId now] l1 IH]; intros m; simpl.
  - by destruct (purchaseLoop userId itemId l2 m).
  - destruct (processPurchase userId itemId newId now m) as [r m1]. rewrite IH.
    destruct (purchaseLoop userId itemId l1 m1) as [rs1 m2].
    by destruct (purchaseLoop userId itemId l2 m2).
Qed.

(** C2.  Let the first item with id [itemId] be SEQUENTIAL with a list of
    [N] units, none delivered, and let the first user with id [userId] be
    able to pay [item.price] at each of [N+1] calls: the balance each call
    reads (whatever the earlier debits computed) is at least the price.
    Then [N+1] successive calls [processPurchase userId itemId] return [N]
    successes delivering the units' contents in list order, then "Out of
    stock".  After the first [k] calls the item has its first [k] units
    marked delivered (the others untouched); call [k+1] replaces it by
    [deliverAt], marking unit [k] delivered and incrementing the
    [deliveredCount] the item had before that call; the failing last call
    changes nothing.  No credit amount is computed in the statement: each
    call is related to the state the previous one left. *)
Theorem sequential_stock_exactly_N userId itemId m itn item units calls
    (Hi : find_ref (itemP itemId) (getInitialState m).(items) = Some (itn, item))
    (Ht : item.(i_type) = SEQUENTIAL)
    (Hs : item.(i_sequentialItems) = Some units)
    (Hfresh : Forall (fun si => si.(si_isDelivered) = false) units)
    (Hcalls : length calls = S (length units))
    (Hcred : forall k, (k <= length units)%nat ->
       exists un u,
         find_ref (userP userId)
           (getInitialState (snd (purchaseLoop userId itemId (take k calls) m))).(users)
           = Some (un, u) /\
         item.(i_price) <= u.(u_credits)) :
  fst (purchaseLoop userId itemId calls m) =
    ((fun si => mkPurchaseResult true (Some si.(si_content)) None) <$> units)
      ++ [purchaseError "Out of stock"] /\
  (forall k, (k <= length units)%nat ->
     exists it,
       find_ref (itemP itemId)
         (getInitialState (snd (purchaseLoop userId itemId (take k calls) m))).(items)
         = Some (itn, it) /\
       it.(i_sequentialItems) = Some ((markDelivered <$> take k units) ++ drop k units)) /\
  (forall k si, units !! k = Some si ->
     exists it it',
       find_ref (itemP itemId)
         (getInitialState (snd (purchaseLoop userId itemId (take k calls) m))).(items)
         = Some (itn, it) /\
       find_ref (itemP itemId)
         (getInitialState (snd (purchaseLoop userId itemId (take (S k) calls) m))).(items)
         = Some (itn, it') /\
       it' = deliverAt it ((markDelivered <$> take k units) ++ drop k units) k si /\
       it'.(i_deliveredCount) = it.(i_deliveredCount) + 1) /\
  snd (purchaseLoop userId itemId calls m)
    = snd (purchaseLoop userId itemId (take (length units) calls) m).
Proof.
  set (succ := fun si : SequentialItem => mkPurchaseResult true (Some si.(si_content)) None).
  (* one more call after [k] of them *)
  assert (Hone : forall k si rs m' it,
            units !! k = Some si ->
            purchaseLoop userId itemId (take k calls) m = (rs, m') ->
            stage itemId itn item units k m' it ->
            fst (purchaseLoop userId itemId (take (S k) calls) m) = rs ++ [succ si] /\
            let m1 := snd (purchaseLoop userId itemId (take (S k) calls) m) in
            find_ref (itemP itemId) (getInitialState m1).(items)
              = Some (itn, deliverAt it (unitsAfter units k) k si) /\
            stage itemId itn item units (S k) m1 (deliverAt it (unitsAfter units k) k si)).
  { intros k si rs m' it Hk E Hst.
    assert (Hlt : (k < length units)%nat) by (by eapply lookup_lt_Some).
    destruct (lookup_lt_is_Some_2 calls k) as [[newId now] Hc]; [lia|].
    assert (Hpay : canPay userId item m').
    { destruct (Hcred k ltac:(lia)) as (un & u & Hu & Hp). rewrite E in Hu. by exists un, u. }
    pose proof (stage_step userId itemId itn item units Hfresh k m' it newId now si Hst Hk Hpay)
      as Hstep.
    rewrite (take_S_r _ _ _ Hc), purchaseLoop_app, E. cbn [purchaseLoop].
    destruct (processPurchase userId itemId newId now m') as [r m1].
    destruct Hstep as (-> & Hf & Hst1).
    cbn [fst snd]. split; [reflexivity|]. split; [exact Hf|exact Hst1]. }
  assert (Hpre : forall k, (k <= length units)%nat ->
            exists it, fst (purchaseLoop userId itemId (take k calls) m) = succ <$> take k units /\
                       stage itemId itn item units k
                         (snd (purchaseLoop userId itemId (take k calls) m)) it).
  { induction k as [|k IH]; intros Hk.
    - exists item. cbn. split; [done|]. split; [done|]. split; [done|]. split; [done|].
      unfold unitsAfter. by rewrite take_0, drop_0.
    - destruct (IH ltac:(lia)) as (it & Hrs & Hst).
      destruct (lookup_lt_is_Some_2 units k) as [si Hk']; [lia|].
      destruct (purchaseLoop userId itemId (take k calls) m) as [rs m'] eqn:E.
      cbn [fst snd] in Hrs, Hst.
      destruct (Hone k si rs m' it Hk' E Hst) as (HE & _ & Hst1).
      exists (deliverAt it (unitsAfter units k) k si). split; [|exact Hst1].
      rewrite HE, Hrs, (take_S_r _ _ _ Hk'), fmap_app. done. }
  destruct (lookup_lt_is_Some_2 calls (length units)) as [[newId now] Hlast]; [lia|].
  assert (Hsplit : calls = take (length units) calls ++ [(newId, now)]).
  { rewrite <- (take_drop (length units) calls) at 1. f_equal.
    rewrite (drop_S _ _ _ Hlast), drop_ge by lia. done. }
  destruct (Hpre (length units) ltac:(lia)) as (itN & HrsN & HstN).
  assert (HpayN : canPay userId item (snd (purchaseLoop userId itemId (take (length units) calls) m)))
    by (destruct (Hcred (length units) ltac:(lia)) as (un & u & Hu & Hp); by exists un, u).
  split; [|split; [|split]].
  - rewrite Hsplit, purchaseLoop_app.
    destruct (purchaseLoop userId itemId (take (length units) calls) m) as [rs1 m1] eqn:E1.
    cbn [purchaseLoop fst snd] in HrsN, HstN, HpayN |- *.
    rewrite (stage_out_of_stock userId itemId itn item units m1 itN newId now HstN HpayN).
    cbn [fst]. rewrite HrsN, take_ge by lia. done.
  - intros k Hk. destruct (Hpre k Hk) as (it & _ & Hf & _ & _ & Hsq). by exists it.
  - intros k si Hk'.
    assert (Hlt : (k < length units)%nat) by (by eapply lookup_lt_Some).
    destruct (Hpre k ltac:(lia)) as (it & _ & Hst).
    destruct (purchaseLoop userId itemId (take k calls) m) as [rs m'] eqn:E.
    destruct (Hone k si rs m' it Hk' E Hst) as (_ & Hf1 & _).
    exists it, (deliverAt it (unitsAfter units k) k si).
    split; [exact (proj1 Hst)|]. split; [exact Hf1|]. split; [reflexivity|]. reflexivity.
  - rewrite Hsplit at 1. rewrite purchaseLoop_app.
    destruct (purchaseLoop userId itemId (take (length units) calls) m) as [rs1 m1] eqn:E1.
    cbn [purchaseLoop snd] in HstN, HpayN |- *.
    rewrite (stage_out_of_stock userId itemId itn item units m1 itN newId now HstN HpayN).
    done.
Qed.

Definition seqItem : Item :=
  mkItem "S" "Key" 30 SEQUENTIAL None
    (Some [mkSequentialItem "K1" false; mkSequentialItem "K2" false]) 0.
Definition seqMedium : Medium :=
  mkMedium (Some (mkDBState [exUser] [seqItem] [] [] [] [])) [].
Definition seqCalls : list (string * Z) := [("p1", 1); ("p2", 2); ("p3", 3)]%string.
Definition seqUnits : list SequentialItem :=
  [mkSequentialItem "K1" false; mkSequentialItem "K2" false].

Lemma sequential_stock_exactly_N_witness :
  fst (purchaseLoop "U" "S" seqCalls seqMedium) =
    ((fun si => mkPurchaseResult true (Some si.(si_content)) None) <$> seqUnits)
      ++ [purchaseError "Out of stock"] /\
  (forall k, (k <= 2)%nat ->
     exists it,
       find_ref (itemP "S")
         (getInitialState (snd (purchaseLoop "U" "S" (take k seqCalls) seqMedium))).(items)
         = Some (0%nat, it) /\
       it.(i_sequentialItems) = Some ((markDelivered <$> take k seqUnits) ++ drop k seqUnits)) /\
  (forall k si, seqUnits !! k = Some si ->
     exists it it',
       find_ref (itemP "S")
         (getInitialState (snd (purchaseLoop "U" "S" (take k seqCalls) seqMedium))).(items)
         = Some (0%nat, it) /\
       find_ref (itemP "S")
         (getInitialState (snd (purchaseLoop "U" "S" (take (S k) seqCalls) seqMedium))).(items)
         = Some (0%nat, it') /\
       it' = deliverAt it ((markDelivered <$> take k seqUnits) ++ drop k seqUnits) k si /\
       it'.(i_deliveredCount) = it.(i_deliveredCount) + 1) /\
  snd (purchaseLoop "U" "S" seqCalls seqMedium)
    = snd (purchaseLoop "U" "S" (take 2 seqCalls) seqMedium).
Proof.
  apply (sequential_stock_exactly_N "U" "S" seqMedium 0 seqItem seqUnits seqCalls);
    try reflexivity.
  - repeat constructor.
  - intros k Hk. destruct k as [|[|[|k]]]; [| | |simpl in Hk; lia];
      do 2 eexists; (split; [vm_compute; reflexivity|vm_compute; discriminate]).
Defined.

(* ------------------------------------------------------------------ *)
(** ** Transactions *)

(** [updateTransactionStatus] when its search finds a transaction. *)
Lemma updateTransactionStatus_found id status m tn tx :
  let state := getInitialState m in
  find_ref (txP id) state.(transactions) = Some (tn, tx) ->
  updateTransactionStatus id status m =
    (tt, saveState
           (mkDBState
              (if TransactionStatus_eqb status APPROVED then
                 match find_ref (userP tx.(t_userId)) state.(users) with
                 | Some (un, user) =>
                     <[un := set_credits user (user.(u_credits) + tx.(t_amount))]> state.(users)
                 | None => state.(users)
                 end
               else state.(users))
              state.(items) state.(purchases)
              (<[tn := set_status tx status]> state.(transactions))
              state.(redeemCodes) state.(tickets)) m).
Proof.
  cbv zeta. intros Htx. unfold updateTransactionStatus. cbv zeta. rewrite Htx.
  destruct (TransactionStatus_eqb status APPROVED); [|reflexivity].
  unfold set_transactions at 2. cbn [users].
  by destruct (find_ref (userP (t_userId tx)) _) as [[un user]|].
Qed.

(** Counterexample medium: two transactions sharing the id "t". *)
Definition userA : User := mkUser "a" USER 0.
Definition userB : User := mkUser "b" USER 0.
Definition txA : Transaction := mkTransaction "t" "a" 5 PENDING.
Definition txB : Transaction := mkTransaction "t" "b" 7 PENDING.
Definition dupTxMedium : Medium :=
  mkMedium (Some (mkDBState [userA; userB] [] [] [txA; txB] [] [])) [].

(** C3 (counterexample).  [txB] is present in the store, but
    [updateTransactionStatus txB.id APPROVED] acts on [txA], the first
    transaction with that id: [txB] keeps status PENDING and its user "b"
    keeps 0 credits. *)
Lemma C3_duplicate_id_untouched :
  txB ∈ (getInitialState dupTxMedium).(transactions) /\
  let m' := snd (updateTransactionStatus txB.(t_id) APPROVED dupTxMedium) in
  (getInitialState m').(transactions) !! 1%nat = Some txB /\
  (getInitialState m').(users) !! 1%nat = Some userB.
Proof.
  split; [apply list_elem_of_In; simpl; auto|]. vm_compute. split; reflexivity.
Qed.

(** C3 (amended).  Let [tx] be the first stored transaction with id [id].
    [updateTransactionStatus id status] sets its status to [status]; with
    APPROVED it adds exactly [tx.amount] to the credits of the first user
    whose id is [tx.userId] (other users unchanged), and a second APPROVED
    call adds [tx.amount] again to the balance the first call left, the
    two [+=] one after the other; with any other status no user's credits
    change. *)
Theorem updateTransactionStatus_credits id status m tn tx
    (Htx : find_ref (txP id) (getInitialState m).(transactions) = Some (tn, tx)) :
  let state := getInitialState m in
  let m' := snd (updateTransactionStatus id status m) in
  (getInitialState m').(transactions) = <[tn := set_status tx status]> state.(transactions) /\
  (status = APPROVED -> forall un user,
     find_ref (userP tx.(t_userId)) state.(users) = Some (un, user) ->
     (getInitialState m').(users)
       = <[un := set_credits user (user.(u_credits) + tx.(t_amount))]> state.(users) /\
     (getInitialState (snd (updateTransactionStatus id APPROVED m'))).(users)
       = <[un := set_credits user ((user.(u_credits) + tx.(t_amount)) + tx.(t_amount))]>
           state.(users)) /\
  (status <> APPROVED -> (getInitialState m').(users) = state.(users)).
Proof.
  cbv zeta. rewrite (updateTransactionStatus_found id status m tn tx Htx). cbn [snd].
  rewrite getInitialState_saveState. cbn [transactions users].
  split; [done|]. split.
  - intros -> un user Hu. cbn [TransactionStatus_eqb]. rewrite Hu. split; [done|].
    rewrite (updateTransactionStatus_found id APPROVED _ tn (set_status tx APPROVED));
      [| rewrite getInitialState_saveState; cbn [transactions];
         eapply find_ref_insert; [exact Htx|]; by apply find_ref_Some in Htx as (_ & ? & _)].
    cbn [snd TransactionStatus_eqb]. rewrite !getInitialState_saveState. cbn [users].
    cbn [t_userId t_amount set_status].
    rewrite (find_ref_insert _ _ _ _ (set_credits user (u_credits user + t_amount tx)) Hu)
      by (by apply find_ref_Some in Hu as (_ & ? & _)).
    by rewrite list_insert_insert_eq.
  - intros Hne. by destruct status.
Qed.

Lemma updateTransactionStatus_credits_witness :
  let state := getInitialState dupTxMedium in
  let m' := snd (updateTransactionStatus "t" APPROVED dupTxMedium) in
  (getInitialState m').(transactions) = <[0%nat := set_status txA APPROVED]> state.(transactions) /\
  (APPROVED = APPROVED -> forall un user,
     find_ref (userP txA.(t_userId)) state.(users) = Some (un, user) ->
     (getInitialState m').(users)
       = <[un := set_credits user (user.(u_credits) + txA.(t_amount))]> state.(users) /\
     (getInitialState (snd (updateTransactionStatus "t" APPROVED m'))).(users)
       = <[un := set_credits user ((user.(u_credits) + txA.(t_amount)) + txA.(t_amount))]>
           state.(users)) /\
  (APPROVED <> APPROVED -> (getInitialState m').(users) = state.(users)).
Proof. exact (updateTransactionStatus_credits "t" APPROVED dupTxMedium 0%nat txA eq_refl). Defined.

(** Witness medium: a transaction whose user "ghost" is not stored. *)
Definition txGhost : Transaction := mkTransaction "t" "ghost" 5 PENDING.
Definition ghostMedium : Medium :=
  mkMedium (Some (mkDBState [exUser] [] [] [txGhost] [] [])) [].

(** C9.  If the first transaction with id [id] has a [userId] matching no
    stored user, [updateTransactionStatus id APPROVED] still sets its
    status to APPROVED and writes the document, leaves every user (and
    every other collection) as it was, and returns normally. *)
Theorem updateTransactionStatus_orphan id m tn tx
    (Htx : find_ref (txP id) (getInitialState m).(transactions) = Some (tn, tx))
    (Hno : forall u, u ∈ (getInitialState m).(users) -> u.(u_id) <> tx.(t_userId)) :
  updateTransactionStatus id APPROVED m =
    (tt, saveState (set_transactions (getInitialState m)
                      (<[tn := set_status tx APPROVED]> (getInitialState m).(transactions))) m).
Proof.
  rewrite (updateTransactionStatus_found id APPROVED m tn tx Htx).
  cbn [TransactionStatus_eqb].
  rewrite (find_ref_None_intro (userP (t_userId tx))); [reflexivity|].
  intros j y Hy. unfold userP. apply String.eqb_neq.
  apply Hno. by eapply list_elem_of_lookup_2.
Qed.

Lemma updateTransactionStatus_orphan_witness :
  updateTransactionStatus "t" APPROVED ghostMedium =
    (tt, saveState (set_transactions (getInitialState ghostMedium)
                      (<[0%nat := set_status txGhost APPROVED]>
                         (getInitialState ghostMedium).(transactions))) ghostMedium).
Proof.
  apply (updateTransactionStatus_orphan "t" ghostMedium 0%nat txGhost eq_refl).
  intros u Hu. simpl in Hu. apply list_elem_of_In in Hu. simpl in Hu.
  destruct Hu as [<-|[]]. discriminate.
Defined.

(* ------------------------------------------------------------------ *)
(** ** Items *)

(** C6.  [updateItem item] returns true iff some stored item has id
    [item.id].  Then the first such record is replaced by [item] at the
    same position, every other position is unchanged, and the document is
    written once; when it returns false the medium is untouched (no write). *)
Theorem updateItem_spec (item : Item) (m : Medium) :
  let state := getInitialState m in
  let '(b, m') := updateItem item m in
  (b = true <-> exists j it, state.(items) !! j = Some it /\ it.(i_id) = item.(i_id)) /\
  (b = true ->
     exists idx it,
       state.(items) !! idx = Some it /\ it.(i_id) = item.(i_id) /\
       (forall j it', (j < idx)%nat -> state.(items) !! j = Some it' -> it'.(i_id) <> item.(i_id)) /\
       (getInitialState m').(items) !! idx = Some item /\
       (forall j, j <> idx -> (getInitialState m').(items) !! j = state.(items) !! j) /\
       length (getInitialState m').(items) = length state.(items) /\
       m' = saveState (set_items state (<[idx := item]> state.(items))) m) /\
  (b = false -> m' = m).
Proof.
  cbv zeta. unfold updateItem, findIndex. cbv zeta.
  destruct (find_ref (itemP (i_id item)) _) as [[idx it]|] eqn:Hf.
  - apply find_ref_Some in Hf as (Hl & Hp & Hb). unfold itemP in Hp, Hb.
    apply String.eqb_eq in Hp.
    split; [split; [intros _; eauto|done]|]. split; [|discriminate].
    intros _. exists idx, it. split; [done|]. split; [done|]. split.
    { intros j it' Hj Hj'. apply String.eqb_neq. eauto. }
    rewrite getInitialState_saveState. cbn [items set_items].
    split; [apply list_lookup_insert_eq; by eapply lookup_lt_Some|].
    split; [intros j Hj; by apply list_lookup_insert_ne|].
    split; [apply length_insert|done].
  - split; [split; [discriminate|]|split; [discriminate|done]].
    intros (j & it & Hj & Hid).
    pose proof (find_ref_None _ _ Hf j it Hj) as Hn. unfold itemP in Hn.
    rewrite Hid, String.eqb_refl in Hn. discriminate.
Qed.

(** The [addItem]/[deleteItem] calls of C7. *)
Inductive ItemOp := IAdd (item : Item) | IDelete (itemId : string).

Definition itemStep (o : ItemOp) (m : Medium) : Medium :=
  match o with
  | IAdd item => snd (addItem item m)
  | IDelete itemId => snd (deleteItem itemId m)
  end.

Fixpoint runItemOps (os : list ItemOp) (m : Medium) : Medium :=
  match os with [] => m | o :: os' => runItemOps os' (itemStep o m) end.

(** An item is still there after the calls [later] iff none of them is a
    [deleteItem] of its id. *)
Definition survives (later : list ItemOp) (it : Item) : bool :=
  forallb (fun o => match o with IDelete itemId => negb (itemP itemId it) | IAdd _ => true end)
          later.

(** The items added by [os] and not deleted by a later call, in call order. *)
Fixpoint netAdds (os : list ItemOp) : list Item :=
  match os with
  | [] => []
  | IAdd it :: rest => (if survives rest it then [it] else []) ++ netAdds rest
  | IDelete _ :: rest => netAdds rest
  end.

Lemma filter_filter_andb {A} (f g : A -> bool) (l : list A) :
  List.filter f (List.filter g l) = List.filter (fun x => g x && f x) l.
Proof.
  induction l as [|a l IH]; simpl; [done|].
  destruct (g a); simpl; [destruct (f a)|]; simpl; by rewrite IH.
Qed.

Lemma runItemOps_items (os : list ItemOp) (m : Medium) :
  (getInitialState (runItemOps os m)).(items)
    = List.filter (survives os) (getInitialState m).(items) ++ netAdds os.
Proof.
  revert m. induction os as [|[it|itemId] os IH]; intros m; simpl.
  - rewrite app_nil_r. induction (items (getInitialState m)) as [|a l IHl]; simpl; [done|].
    by rewrite <- IHl.
  - rewrite IH, getInitialState_saveState. cbn [set_items items]. unfold push.
    rewrite List.filter_app, <- app_assoc. simpl. by destruct (survives os it).
  - rewrite IH, getInitialState_saveState. cbn [set_items items].
    by rewrite filter_filter_andb.
Qed.

(** C7 (counterexample).  From a state already holding [exItem], the empty
    sequence of calls adds nothing, yet [getItems] returns [exItem]. *)
Lemma C7_initial_items_survive :
  fst (getItems (runItemOps [] exMedium)) = [exItem] /\ netAdds [] = [].
Proof. split; reflexivity. Qed.

(** C7 (amended).  After any sequence [os] of [addItem]/[deleteItem] calls,
    [getItems] returns the items stored at the start that no call deletes,
    followed by the items added by [os] that no later call deletes (every
    item with a deleted id goes), each group in its original order. *)
Theorem getItems_after_add_delete (os : list ItemOp) (m : Medium) :
  fst (getItems (runItemOps os m))
    = List.filter (survives os) (getInitialState m).(items) ++ netAdds os.
Proof. apply runItemOps_items. Qed.

(* ------------------------------------------------------------------ *)
(** ** Reads *)

(** The read-only members of [DB]: the six getters and [verifyUser]. *)
Definition isRead (o : Op) : bool :=
  match o with
  | OpGetUsers | OpGetItems | OpGetPurchases | OpGetTransactions
  | OpGetRedeemCodes | OpGetTickets | OpVerifyUser _ => true
  | _ => false
  end.

Lemma step_read_id o m : isRead o = true -> step o m = m.
Proof.
  destruct o; simpl; try discriminate; intros _; try reflexivity.
  unfold verifyUser. by destruct (0 <? String.length _)%nat.
Qed.

(** C8.  When [STORAGE_KEY] is absent, each of the six getters returns an
    empty sequence and leaves the medium as it was (the key stays absent,
    nothing is written); more generally any run of read-only calls leaves
    the medium untouched, so the first write can only come from a
    mutating call. *)
Theorem reads_on_absent_key (m : Medium) (Habs : m.(stored) = None) :
  getUsers m = ([], m) /\ getItems m = ([], m) /\ getPurchases m = ([], m) /\
  getTransactions m = ([], m) /\ getRedeemCodes m = ([], m) /\ getTickets m = ([], m) /\
  (forall os, forallb isRead os = true -> run os m = m).
Proof.
  unfold getUsers, getItems, getPurchases, getTransactions, getRedeemCodes, getTickets,
    getInitialState.
  rewrite Habs. do 6 (split; [reflexivity|]).
  clear Habs. induction os as [|o os IH] in m |- *; simpl; [done|].
  intros [Ho Hos]%andb_prop. rewrite step_read_id by done. by apply IH.
Qed.

Lemma reads_on_absent_key_witness :
  let m := mkMedium None [] in
  getUsers m = ([], m) /\ getItems m = ([], m) /\ getPurchases m = ([], m) /\
  getTransactions m = ([], m) /\ getRedeemCodes m = ([], m) /\ getTickets m = ([], m) /\
  (forall os, forallb isRead os = true -> run os m = m).
Proof. exact (reads_on_absent_key (mkMedium None []) eq_refl). Defined.

(* ------------------------------------------------------------------ *)
(** ** Redeem codes *)

Definition codesOf (m : Medium) : list RedeemCode := (getInitialState m).(redeemCodes).

(** How one call can change the redeem codes: not at all, by appending a
    record, or by marking an unused record used. *)
Lemma step_codes (o : Op) (m : Medium) :
  codesOf (step o m) = codesOf m \/
  (exists c, codesOf (step o m) = push (codesOf m) c) \/
  (exists cn c, codesOf m !! cn = Some c /\ c_isUsed c = false /\
                codesOf (step o m) = <[cn := markUsed c]> (codesOf m)).
Proof.
  destruct o; cbn [step]; unfold codesOf;
    unfold getUsers, addUser, verifyUser, updateUserCredits, getItems, addItem,
      updateItem, deleteItem, getPurchases, addPurchase, processPurchase,
      getTransactions, addTransaction, updateTransactionStatus, getRedeemCodes,
      addRedeemCode, redeem, getTickets, createTicket, addTicketMessage, closeTicket;
    cbv zeta;
    repeat (case_match; cbn [snd fst]);
    rewrite ?getInitialState_saveState; eauto.
  match goal with H : find_ref (codeP _) _ = Some (?n, ?c) |- _ =>
    right; right; exists n, c; apply find_ref_Some in H as (Hl & Hp & _) end.
  unfold codeP in Hp. apply andb_prop in Hp as [_ Hn]. apply negb_true_iff in Hn.
  eauto.
Qed.

(** A used record keeps its position and value through any calls. *)
Lemma run_keeps_used (os : list Op) (m : Medium) i c :
  codesOf m !! i = Some c -> c_isUsed c = true -> codesOf (run os m) !! i = Some c.
Proof.
  revert m. induction os as [|o os IH]; intros m Hi Hu; simpl; [done|].
  apply IH; [|done].
  destruct (step_codes o m) as [->|[(c' & ->)|(cn & c' & Hcn & Hun & ->)]]; [done| |].
  - unfold push. rewrite lookup_app_l; [done|]. by eapply lookup_lt_Some.
  - rewrite list_lookup_insert_ne; [done|]. intros ->. congruence.
Qed.

Lemma redeem_failure_no_write userId codeStr m :
  d_success (fst (redeem userId codeStr m)) = false -> snd (redeem userId codeStr m) = m.
Proof.
  unfold redeem. cbv zeta.
  destruct (find_ref (userP userId) _) as [[un user]|]; [|done].
  destruct (find_ref (codeP codeStr) _) as [[cn code]|]; [|done].
  discriminate.
Qed.

Lemma redeem_success_marks userId codeStr m :
  d_success (fst (redeem userId codeStr m)) = true ->
  exists j c, codesOf m !! j = Some c /\ c_isUsed c = false /\
    codesOf (snd (redeem userId codeStr m)) = <[j := markUsed c]> (codesOf m).
Proof.
  unfold redeem. cbv zeta.
  destruct (find_ref (userP userId) _) as [[un user]|]; [|discriminate].
  destruct (find_ref (codeP codeStr) _) as [[cn code]|] eqn:Hc; [|discriminate].
  intros _. apply find_ref_Some in Hc as (Hl & Hp & _).
  unfold codeP in Hp. apply andb_prop in Hp as [_ Hn]. apply negb_true_iff in Hn.
  exists cn, code. done.
Qed.

(** Counterexample medium: the only code "OLD" is used; user "U" exists. *)
Definition usedCodeMedium : Medium :=
  mkMedium (Some (mkDBState [exUser] [] [] [] [mkRedeemCode "OLD" 10 true] [])) [].

(** C4 (counterexample).  The record matching "OLD" is used, but for an
    unknown user [redeem] fails with "User not found", not with
    "Invalid or already used code": the user lookup comes first. *)
Lemma C4_unknown_user_error :
  redeem "nobody" "OLD" usedCodeMedium
    = (mkRedeemResult false None (Some "User not found"%string), usedCodeMedium).
Proof. reflexivity. Qed.

(** C4 (amended).  If the user exists and every record matching [codeStr]
    is used, [redeem] fails with "Invalid or already used code" and
    changes nothing; if no stored user has id [userId] it fails with
    "User not found" instead and changes nothing; any failing [redeem] leaves the medium (credits
    included) untouched and writes nothing.  Once a record is used, every
    later sequence of calls keeps it, unchanged and used, at its position;
    a later successful [redeem] marks a different, unused, record. *)
Theorem redeem_used_code userId codeStr m :
  let state := getInitialState m in
  ((exists un user, find_ref (userP userId) state.(users) = Some (un, user)) ->
   (forall j c, state.(redeemCodes) !! j = Some c -> c.(c_code) = codeStr ->
                c.(c_isUsed) = true) ->
   redeem userId codeStr m
     = (mkRedeemResult false None (Some "Invalid or already used code"%string), m)) /\
  ((forall j u, state.(users) !! j = Some u -> u.(u_id) <> userId) ->
   redeem userId codeStr m
     = (mkRedeemResult false None (Some "User not found"%string), m)) /\
  (d_success (fst (redeem userId codeStr m)) = false -> snd (redeem userId codeStr m) = m) /\
  (forall os i c, codesOf m !! i = Some c -> c_isUsed c = true ->
     codesOf (run os m) !! i = Some c /\
     forall userId' codeStr',
       d_success (fst (redeem userId' codeStr' (run os m))) = true ->
       exists j c', j <> i /\ codesOf (run os m) !! j = Some c' /\ c_isUsed c' = false /\
         codesOf (snd (redeem userId' codeStr' (run os m)))
           = <[j := markUsed c']> (codesOf (run os m))).
Proof.
  cbv zeta. split; [|split; [|split]].
  - intros (un & user & Hu) Hall. unfold redeem. cbv zeta. rewrite Hu.
    rewrite find_ref_None_intro; [done|].
    intros j y Hy. unfold codeP.
    destruct (String.eqb (c_code y) codeStr) eqn:He; [|done].
    apply String.eqb_eq in He. by rewrite (Hall j y Hy He).
  - intros Hno. unfold redeem. cbv zeta.
    rewrite find_ref_None_intro; [done|].
    intros j y Hy. apply String.eqb_neq. eauto.
  - apply redeem_failure_no_write.
  - intros os i c Hi Hu. pose proof (run_keeps_used os m i c Hi Hu) as Hkeep.
    split; [done|]. intros userId' codeStr' Hs.
    destruct (redeem_success_marks userId' codeStr' (run os m) Hs)
      as (j & c' & Hj & Hun & Heq).
    exists j, c'. split; [intros ->; congruence|]. done.
Qed.

(* ------------------------------------------------------------------ *)
(** ** Invariants of the whole interface *)

Definition purchasesOf (m : Medium) : list Purchase := (getInitialState m).(purchases).
Definition usersOf (m : Medium) : list User := (getInitialState m).(users).
Definition ticketsOf (m : Medium) : list Ticket := (getInitialState m).(tickets).

Ltac unfold_ops :=
  unfold getUsers, addUser, verifyUser, updateUserCredits, getItems, addItem,
    updateItem, deleteItem, getPurchases, addPurchase, processPurchase,
    getTransactions, addTransaction, updateTransactionStatus, getRedeemCodes,
    addRedeemCode, redeem, getTickets, createTicket, addTicketMessage, closeTicket;
  cbv zeta.

Lemma step_purchases (o : Op) (m : Medium) :
  purchasesOf (step o m) = purchasesOf m \/
  exists p, purchasesOf (step o m) = push (purchasesOf m) p.
Proof.
  destruct o; cbn [step]; unfold purchasesOf; unfold_ops;
    repeat (case_match; cbn [snd fst]); rewrite ?getInitialState_saveState; eauto.
Qed.

Lemma step_users (o : Op) (m : Medium) :
  usersOf (step o m) = usersOf m \/
  (exists u, usersOf (step o m) = push (usersOf m) u) \/
  (exists n u c, usersOf m !! n = Some u /\
                 usersOf (step o m) = <[n := set_credits u c]> (usersOf m)).
Proof.
  destruct o; cbn [step]; unfold usersOf; unfold_ops;
    repeat (case_match; cbn [snd fst]); rewrite ?getInitialState_saveState; eauto;
    match goal with
    | H : find_ref (userP _) _ = Some (?n, ?u) |- _ =>
        apply find_ref_Some in H as (Hl & _ & _);
        right; right; exists n, u; eexists; split; [exact Hl|reflexivity]
    end.
Qed.

Lemma step_tickets (o : Op) (m : Medium) :
  ticketsOf (step o m) = ticketsOf m \/
  (exists t, ticketsOf (step o m) = push (ticketsOf m) t) \/
  (exists n t t', ticketsOf m !! n = Some t /\ k_id t' = k_id t /\
     (exists ms, k_messages t' = k_messages t ++ ms) /\
     ticketsOf (step o m) = <[n := t']> (ticketsOf m)).
Proof.
  destruct o; cbn [step]; unfold ticketsOf; unfold_ops;
    repeat (case_match; cbn [snd fst]); rewrite ?getInitialState_saveState; eauto;
    match goal with
    | H : find_ref _ (tickets _) = Some (?n, ?t) |- _ =>
        apply find_ref_Some in H as (Hl & _ & _);
        right; right; exists n, t; eexists;
        refine (conj Hl (conj _ (conj _ eq_refl))); [reflexivity|]
    end.
  - exists [msg]. reflexivity.
  - exists []. by rewrite app_nil_r.
Qed.

(** The purchase log is append-only: after any sequence of calls the log
    starts with the records it held before, unchanged and in order. *)
Theorem purchases_append_only (os : list Op) (m : Medium) :
  exists ps, purchasesOf (run os m) = purchasesOf m ++ ps.
Proof.
  revert m. induction os as [|o os IH]; intros m; simpl.
  - exists []. by rewrite app_nil_r.
  - destruct (IH (step o m)) as [ps Hps]. rewrite Hps.
    destruct (step_purchases o m) as [->|[p ->]].
    + by exists ps.
    + exists (p :: ps). unfold push. by rewrite <- app_assoc.
Qed.

(** No call deletes or reorders users, and none changes a user's id or
    role: only credits change. *)
Theorem users_stable (os : list Op) (m : Medium) i u
    (Hi : usersOf m !! i = Some u) :
  exists u', usersOf (run os m) !! i = Some u' /\
             u'.(u_id) = u.(u_id) /\ u'.(u_role) = u.(u_role).
Proof.
  revert m u Hi. induction os as [|o os IH]; intros m u Hi; simpl; [by exists u|].
  assert (Hs : exists u1, usersOf (step o m) !! i = Some u1 /\
                          u1.(u_id) = u.(u_id) /\ u1.(u_role) = u.(u_role)).
  { destruct (step_users o m) as [->|[(u' & ->)|(n & un & c & Hn & ->)]].
    - by exists u.
    - exists u. unfold push. rewrite lookup_app_l; [done|]. by eapply lookup_lt_Some.
    - destruct (decide (i = n)) as [->|Hne].
      + rewrite Hi in Hn. injection Hn as <-. exists (set_credits u c).
        rewrite list_lookup_insert_eq by (by eapply lookup_lt_Some). done.
      + exists u. by rewrite list_lookup_insert_ne. }
  destruct Hs as (u1 & Hu1 & Hid & Hrole).
  destruct (IH (step o m) u1 Hu1) as (u2 & Hu2 & Hid2 & Hrole2).
  exists u2. split; [done|]. split; congruence.
Qed.

Lemma users_stable_witness :
  exists u', usersOf (run [OpUpdateUserCredits "U" 5; OpAddUser (mkUser "V" ADMIN 0)]
                          exMedium) !! 0%nat = Some u' /\
             u'.(u_id) = exUser.(u_id) /\ u'.(u_role) = exUser.(u_role).
Proof. apply users_stable. reflexivity. Defined.

(** No call deletes or reorders tickets; a ticket keeps its id and its
    message thread only grows at the end. *)
Theorem tickets_messages_append_only (os : list Op) (m : Medium) i t
    (Hi : ticketsOf m !! i = Some t) :
  exists t', ticketsOf (run os m) !! i = Some t' /\ t'.(k_id) = t.(k_id) /\
             exists ms, t'.(k_messages) = t.(k_messages) ++ ms.
Proof.
  revert m t Hi. induction os as [|o os IH]; intros m t Hi; simpl.
  { exists t. split; [done|]. split; [done|]. exists []. by rewrite app_nil_r. }
  assert (Hs : exists t1, ticketsOf (step o m) !! i = Some t1 /\ t1.(k_id) = t.(k_id) /\
                          exists ms, t1.(k_messages) = t.(k_messages) ++ ms).
  { destruct (step_tickets o m) as [->|[(t' & ->)|(n & tn & t' & Hn & Hid & Hms & ->)]].
    - exists t. split; [done|]. split; [done|]. exists []. by rewrite app_nil_r.
    - exists t. unfold push. rewrite lookup_app_l by (by eapply lookup_lt_Some).
      split; [done|]. split; [done|]. exists []. by rewrite app_nil_r.
    - destruct (decide (i = n)) as [->|Hne].
      + rewrite Hi in Hn. injection Hn as <-. exists t'.
        rewrite list_lookup_insert_eq by (by eapply lookup_lt_Some). done.
      + exists t. rewrite list_lookup_insert_ne by done.
        split; [done|]. split; [done|]. exists []. by rewrite app_nil_r. }
  destruct Hs as (t1 & Ht1 & Hid & ms1 & Hms1).
  destruct (IH (step o m) t1 Ht1) as (t2 & Ht2 & Hid2 & ms2 & Hms2).
  exists t2. split; [done|]. split; [congruence|].
  exists (ms1 ++ ms2). rewrite Hms2, Hms1. by rewrite app_assoc.
Qed.

Definition exTicket : Ticket := mkTicket "T1" [mkTicketMessage "U" "Hello" 1] OPEN 1.
Definition ticketMedium : Medium :=
  mkMedium (Some (mkDBState [exUser] [] [] [] [] [exTicket])) [].

Lemma tickets_messages_append_only_witness :
  exists t', ticketsOf (run [OpAddTicketMessage "T1" (mkTicketMessage "A" "Hi" 2) 2;
                             OpCloseTicket "T1" 3] ticketMedium) !! 0%nat = Some t' /\
             t'.(k_id) = exTicket.(k_id) /\
             exists ms, t'.(k_messages) = exTicket.(k_messages) ++ ms.
Proof. apply tickets_messages_append_only. reflexivity. Defined.

(* ------------------------------------------------------------------ *)
(** ** processPurchase: further properties *)

Lemma processPurchase_failure_no_write userId itemId newId now m :
  r_success (fst (processPurchase userId itemId newId now m)) = false ->
  snd (processPurchase userId itemId newId now m) = m.
Proof.
  unfold processPurchase. cbv zeta.
  destruct (find_ref (userP userId) _) as [[un user]|]; [|done].
  destruct (find_ref (itemP itemId) _) as [[itn item]|]; [|done].
  destruct (u_credits user <? i_price item); [done|].
  destruct (ItemType_eqb (i_type item) INSTANT); [discriminate|].
  destruct (i_sequentialItems item) as [units|]; [|done].
  destruct (find_ref undeliveredP units) as [[k si]|]; [discriminate|done].
Qed.

(** Number of units of a list marked delivered. *)
Definition countDelivered (units : list SequentialItem) : nat :=
  length (List.filter si_isDelivered units).

(** [deliveredCount] agrees with the units marked delivered. *)
Definition countConsistent (it : Item) : Prop :=
  match it.(i_sequentialItems) with
  | Some units => it.(i_deliveredCount) = Z.of_nat (countDelivered units)
  | None => True
  end.

Lemma countDelivered_deliver units k si :
  units !! k = Some si -> si.(si_isDelivered) = false ->
  countDelivered (<[k := markDelivered si]> units) = S (countDelivered units).
Proof.
  unfold countDelivered. revert k. induction units as [|a units IH]; intros [|k] Hk Hd;
    simpl in Hk; try discriminate.
  - injection Hk as ->. simpl. by rewrite Hd.
  - simpl. destruct (si_isDelivered a); simpl; rewrite (IH k Hk Hd); done.
Qed.

(** [processPurchase] keeps every item's [deliveredCount] equal to the
    number of its units marked delivered: the SEQUENTIAL branch marks one
    undelivered unit and increments the counter together. *)
Theorem processPurchase_count_consistent userId itemId newId now m i it
    (Hi : (getInitialState m).(items) !! i = Some it) (Hc : countConsistent it) :
  exists it',
    (getInitialState (snd (processPurchase userId itemId newId now m))).(items) !! i = Some it' /\
    countConsistent it'.
Proof.
  destruct (r_success (fst (processPurchase userId itemId newId now m))) eqn:Hs.
  - destruct (processPurchase userId itemId newId now m) as [r m'] eqn:E. simpl in Hs |- *.
    destruct (processPurchase_success_shape _ _ _ _ _ _ _ E Hs)
      as (un & user & itn & item & content & item' & _ & Hit & _ & _ & Hsh & ->).
    rewrite getInitialState_saveState. cbn [items].
    destruct (decide (i = itn)) as [->|Hne].
    + rewrite list_lookup_insert_eq by (by eapply find_ref_lt).
      apply find_ref_Some in Hit as (Hl & _). rewrite Hi in Hl. injection Hl as <-.
      exists item'. split; [done|].
      destruct Hsh as [(_ & -> & _) | (_ & units & k & si & Hsq & Hk & _ & ->)]; [done|].
      unfold countConsistent in *. rewrite Hsq in Hc. cbn.
      apply find_ref_Some in Hk as (Hk & Hu & _). unfold undeliveredP in Hu.
      apply negb_true_iff in Hu. rewrite (countDelivered_deliver _ _ _ Hk Hu). lia.
    + exists it. by rewrite list_lookup_insert_ne.
  - rewrite processPurchase_failure_no_write by done. eauto.
Qed.

Lemma processPurchase_count_consistent_witness :
  exists it',
    (getInitialState (snd (processPurchase "U" "S" "p1" 1 seqMedium))).(items) !! 0%nat
      = Some it' /\ countConsistent it'.
Proof.
  apply (processPurchase_count_consistent "U" "S" "p1" 1 seqMedium 0%nat seqItem);
    reflexivity.
Defined.

(** Which error [processPurchase] reports: a missing user or item first,
    then insufficient credits (even for an item that is also out of stock),
    then out of stock. *)
Theorem processPurchase_error_order userId itemId newId now m :
  let state := getInitialState m in
  let r := fst (processPurchase userId itemId newId now m) in
  ((find_ref (userP userId) state.(users) = None \/
    find_ref (itemP itemId) state.(items) = None) ->
   r = purchaseError "User or Item not found") /\
  (forall un user itn item,
     find_ref (userP userId) state.(users) = Some (un, user) ->
     find_ref (itemP itemId) state.(items) = Some (itn, item) ->
     user.(u_credits) < item.(i_price) -> r = purchaseError "Insufficient credits") /\
  (forall un user itn item,
     find_ref (userP userId) state.(users) = Some (un, user) ->
     find_ref (itemP itemId) state.(items) = Some (itn, item) ->
     item.(i_price) <= user.(u_credits) -> inStock item = false ->
     r = purchaseError "Out of stock").
Proof.
  cbv zeta. unfold processPurchase. cbv zeta. split; [|split].
  - intros [Hn|Hn]; rewrite Hn; [done|]. by destruct (find_ref (userP userId) _) as [[??]|].
  - intros un user itn item Hu Hi Hlt. rewrite Hu, Hi.
    apply Z.ltb_lt in Hlt. by rewrite Hlt.
  - intros un user itn item Hu Hi Hle Hst. rewrite Hu, Hi.
    apply Z.ltb_ge in Hle. rewrite Hle.
    unfold inStock in Hst. apply orb_false_iff in Hst as [Ht Hst]. rewrite Ht.
    destruct (i_sequentialItems item) as [units|]; [|done].
    rewrite find_ref_existsb in Hst.
    by destruct (find_ref undeliveredP units) as [[??]|].
Qed.

(** A successful [processPurchase] appends exactly one Purchase record, a
    snapshot of the call: the fresh id, the user and item ids, the item's
    name and price at purchase time, the content it returns and the
    timestamp. *)
Theorem processPurchase_record userId itemId newId now m r m'
    (E : processPurchase userId itemId newId now m = (r, m'))
    (Hs : r_success r = true) :
  exists itn item content,
    find_ref (itemP itemId) (getInitialState m).(items) = Some (itn, item) /\
    r_content r = Some content /\
    purchasesOf m' = purchasesOf m ++
      [mkPurchase newId userId itemId item.(i_name) content now item.(i_price)].
Proof.
  destruct (processPurchase_success_shape _ _ _ _ _ _ _ E Hs)
    as (un & user & itn & item & content & item' & _ & Hit & _ & -> & _ & ->).
  exists itn, item, content. done.
Qed.

Lemma processPurchase_record_witness :
  exists itn item content,
    find_ref (itemP "I") (getInitialState exMedium).(items) = Some (itn, item) /\
    r_content (fst (processPurchase "U" "I" "p1" 7 exMedium)) = Some content /\
    purchasesOf (snd (processPurchase "U" "I" "p1" 7 exMedium)) = purchasesOf exMedium ++
      [mkPurchase "p1" "U" "I" item.(i_name) content 7 item.(i_price)].
Proof. exact (processPurchase_record "U" "I" "p1" 7 exMedium _ _ eq_refl eq_refl). Defined.

(* ------------------------------------------------------------------ *)
(** ** Users, tickets and the other mutators *)

(** Two [updateUserCredits] calls for a stored user add up: the first user
    with that id ends with [credits + a + b], every other record and
    collection unchanged, and each call writes once. *)
Theorem updateUserCredits_compose userId a b m n u
    (Hu : find_ref (userP userId) (usersOf m) = Some (n, u)) :
  let m2 := snd (updateUserCredits userId b (snd (updateUserCredits userId a m))) in
  getInitialState m2 =
    set_users (getInitialState m) (<[n := set_credits u (u.(u_credits) + a + b)]> (usersOf m)) /\
  length m2.(saves) = (length m.(saves) + 2)%nat.
Proof.
  cbv zeta. unfold updateUserCredits. cbv zeta. unfold usersOf in Hu. rewrite Hu.
  cbn [snd]. rewrite !getInitialState_saveState. cbn [set_users users].
  rewrite (find_ref_insert _ _ _ _ (set_credits u (u_credits u + a)) Hu)
    by (by apply find_ref_Some in Hu as (_ & ? & _)).
  split; [|simpl; lia].
  rewrite list_insert_insert_eq. unfold set_users, usersOf. cbn [users items purchases
    transactions redeemCodes tickets u_credits set_credits].
  reflexivity.
Qed.

Lemma updateUserCredits_compose_witness :
  let m2 := snd (updateUserCredits "U" 5 (snd (updateUserCredits "U" (-20) exMedium))) in
  getInitialState m2 =
    set_users (getInitialState exMedium)
      (<[0%nat := set_credits exUser (exUser.(u_credits) + (-20) + 5)]> (usersOf exMedium)) /\
  length m2.(saves) = (length exMedium.(saves) + 2)%nat.
Proof. exact (updateUserCredits_compose "U" (-20) 5 exMedium 0%nat exUser eq_refl). Defined.

Lemma filter_all_true {A} (f : A -> bool) (l : list A) :
  (forall j x, l !! j = Some x -> f x = true) -> List.filter f l = l.
Proof.
  induction l as [|a l IH]; intros H; simpl; [done|].
  rewrite (H 0%nat a eq_refl). f_equal. apply IH. intros j x Hx. by apply (H (S j)).
Qed.

(** The mutators without a result still write the document when their
    search finds nothing: [updateUserCredits] for an unknown user,
    [updateTransactionStatus] for an unknown id, [addTicketMessage] and
    [closeTicket] for an unknown ticket and [deleteItem] for an id no item
    has each write the document back unchanged (the empty default one when
    the key is absent). *)
Theorem noop_mutators_still_write m userId amount txId status ticketId msg now itemId
    (Hu : forall j u, usersOf m !! j = Some u -> u.(u_id) <> userId)
    (Htx : forall j t, (getInitialState m).(transactions) !! j = Some t -> t.(t_id) <> txId)
    (Hk : forall j t, ticketsOf m !! j = Some t -> t.(k_id) <> ticketId)
    (Hi : forall j it, (getInitialState m).(items) !! j = Some it -> it.(i_id) <> itemId) :
  let w := (tt, saveState (getInitialState m) m) in
  updateUserCredits userId amount m = w /\
  updateTransactionStatus txId status m = w /\
  addTicketMessage ticketId msg now m = w /\
  closeTicket ticketId now m = w /\
  deleteItem itemId m = w.
Proof.
  cbv zeta.
  unfold updateUserCredits, updateTransactionStatus, addTicketMessage, closeTicket, deleteItem.
  cbv zeta.
  rewrite (find_ref_None_intro (userP userId))
    by (intros j y Hy; apply String.eqb_neq; eauto).
  rewrite (find_ref_None_intro (txP txId))
    by (intros j y Hy; apply String.eqb_neq; eauto).
  rewrite (find_ref_None_intro (fun t => String.eqb t.(k_id) ticketId))
    by (intros j y Hy; apply String.eqb_neq; eauto).
  rewrite filter_all_true.
  - do 4 (split; [done|]). by destruct (getInitialState m).
  - intros j x Hx. apply negb_true_iff. apply String.eqb_neq. eauto.
Qed.

Lemma noop_mutators_still_write_witness :
  let m := mkMedium None [] in
  let w := (tt, saveState emptyState m) in
  updateUserCredits "U" 5 m = w /\
  updateTransactionStatus "t" APPROVED m = w /\
  addTicketMessage "T1" (mkTicketMessage "U" "Hi" 1) 1 m = w /\
  closeTicket "T1" 1 m = w /\
  deleteItem "I" m = w.
Proof.
  apply (noop_mutators_still_write (mkMedium None [])); intros j x Hx; vm_compute in Hx;
    discriminate.
Defined.

(** A successful [redeem] marks the first unused record with that code
    used and credits its amount to the first user with that id; and if no
    other unused record carries the code, redeeming it again fails with
    "Invalid or already used code" and writes nothing. *)
Theorem redeem_then_replay userId codeStr m un u cn c
    (Hu : find_ref (userP userId) (usersOf m) = Some (un, u))
    (Hc : find_ref (codeP codeStr) (codesOf m) = Some (cn, c)) :
  let '(r, m1) := redeem userId codeStr m in
  r = mkRedeemResult true (Some c.(c_amount)) None /\
  usersOf m1 = <[un := set_credits u (u.(u_credits) + c.(c_amount))]> (usersOf m) /\
  codesOf m1 = <[cn := markUsed c]> (codesOf m) /\
  ((forall j c', codesOf m !! j = Some c' -> j <> cn -> codeP codeStr c' = false) ->
   redeem userId codeStr m1
     = (mkRedeemResult false None (Some "Invalid or already used code"%string), m1)).
Proof.
  unfold usersOf, codesOf in *.
  unfold redeem at 1. cbv zeta. rewrite Hu, Hc.
  split; [done|]. split; [done|]. split; [done|].
  intros Honly. unfold redeem. cbv zeta. rewrite getInitialState_saveState.
  unfold set_users, set_redeemCodes. cbn [users redeemCodes].
  rewrite (find_ref_insert _ _ _ _ (set_credits u (u_credits u + c_amount c)) Hu)
    by (by apply find_ref_Some in Hu as (_ & ? & _)).
  rewrite find_ref_None_intro; [done|].
  intros j y Hy. destruct (decide (j = cn)) as [->|Hne].
  - rewrite list_lookup_insert_eq in Hy by (by eapply find_ref_lt).
    injection Hy as <-. unfold codeP. cbn. apply andb_false_r.
  - rewrite list_lookup_insert_ne in Hy by done. eauto.
Qed.

Lemma redeem_then_replay_witness :
  let '(r, m1) := redeem "U" "WELCOME10" exMedium in
  r = mkRedeemResult true (Some 10) None /\
  usersOf m1 = <[0%nat := set_credits exUser (exUser.(u_credits) + 10)]> (usersOf exMedium) /\
  codesOf m1 = <[0%nat := markUsed (mkRedeemCode "WELCOME10" 10 false)]> (codesOf exMedium) /\
  redeem "U" "WELCOME10" m1
    = (mkRedeemResult false None (Some "Invalid or already used code"%string), m1).
Proof.
  pose proof (redeem_then_replay "U" "WELCOME10" exMedium 0%nat exUser 0%nat
                (mkRedeemCode "WELCOME10" 10 false) eq_refl eq_refl) as H.
  destruct (redeem "U" "WELCOME10" exMedium) as [r m1].
  destruct H as (H1 & H2 & H3 & H4).
  split; [exact H1|]. split; [exact H2|]. split; [exact H3|].
  apply H4. intros [|j] c' Hj Hne; [done|]. discriminate.
Defined.

(** Adding a message to a stored ticket and then closing it leaves that
    ticket with the message at the end of its thread, status CLOSED and
    [lastUpdated] set to the closing time; other tickets are unchanged. *)
Theorem ticket_message_then_close ticketId msg t1 t2 m n t
    (Hk : find_ref (fun t => String.eqb t.(k_id) ticketId) (ticketsOf m) = Some (n, t)) :
  ticketsOf (snd (closeTicket ticketId t2 (snd (addTicketMessage ticketId msg t1 m))))
    = <[n := mkTicket t.(k_id) (t.(k_messages) ++ [msg]) CLOSED t2]> (ticketsOf m).
Proof.
  unfold ticketsOf in *. unfold closeTicket, addTicketMessage. cbv zeta. rewrite Hk.
  cbn [snd]. rewrite !getInitialState_saveState. cbn [set_tickets tickets].
  rewrite (find_ref_insert _ _ _ _
             (mkTicket (k_id t) (push (k_messages t) msg) (k_status t) t1) Hk)
    by (by apply find_ref_Some in Hk as (_ & ? & _)).
  rewrite ?getInitialState_saveState. cbn [set_tickets tickets k_id k_messages].
  by rewrite list_insert_insert_eq.
Qed.

Lemma ticket_message_then_close_witness :
  ticketsOf (snd (closeTicket "T1" 3 (snd (addTicketMessage "T1"
                   (mkTicketMessage "A" "Hi" 2) 2 ticketMedium))))
    = <[0%nat := mkTicket exTicket.(k_id) (exTicket.(k_messages) ++ [mkTicketMessage "A" "Hi" 2])
                   CLOSED 3]> (ticketsOf ticketMedium).
Proof. exact (ticket_message_then_close "T1" _ 2 3 ticketMedium 0%nat exTicket eq_refl). Defined.

(** After [deleteItem id], [updateItem] of an item with that id finds
    nothing: it returns false and writes nothing. *)
Theorem updateItem_after_deleteItem (item : Item) (m : Medium) :
  let m1 := snd (deleteItem item.(i_id) m) in
  updateItem item m1 = (false, m1).
Proof.
  cbv zeta. unfold updateItem, findIndex. cbv zeta.
  unfold deleteItem. cbn [snd]. rewrite getInitialState_saveState. cbn [set_items items].
  rewrite find_ref_None_intro; [done|].
  intros j y Hy. apply list_elem_of_lookup_2 in Hy.
  apply list_elem_of_In, filter_In in Hy as [_ Hy]. by apply negb_true_iff in Hy.
Qed.
